(** * MIPS simulator memory subsystem ([memory.py])

    A shallow embedding of the [MIPSMemory] class: the storage array is a
    [list Z], the data segment is an insertion-ordered association list (a
    Python [dict]), and every method is a computation in a small state and
    exception monad over the object's fields.  Python integers are
    unbounded, so they are [Z]; [//] and [%] are floor division and the
    matching remainder, which is what [Z.div] and [Z.modulo] compute, and a
    zero divisor raises.  [allocate_data] keeps the caller's dict object
    and [update_data_memory] assigns into it; the [data_section] field
    holds the value of that dict, which is all the methods observe. *)

From stdpp Require Import base numbers list strings.

Local Open Scope Z_scope.

(** ** Exceptions and outcomes *)

(** The two messages [MemoryError] is raised with. *)
Inductive MemoryErrorMessage : Type :=
  | Unaligned (address : Z)
  | OutOfBounds (address : Z).

Inductive exn : Type :=
  | MemoryError (msg : MemoryErrorMessage)
  | IndexError
  | ZeroDivisionError
  | ValueError.

Inductive outcome (A : Type) : Type :=
  | Return (a : A)
  | Raise (e : exn).
Arguments Return {A} a.
Arguments Raise {A} e.

(** ** The object *)

Record MemoryConfig : Type := {
  base_address : Z;
  size : Z;
  word_size : Z
}.

Record MIPSMemory : Type := {
  config : MemoryConfig;
  memory : list Z;
  data_section : list (string * Z)
}.

(** ** Python primitives *)

Module Py.

(** [l[i]] for an integer [i]: a negative index counts from the end,
    anything outside [-len, len) is an [IndexError] ([None]). *)
Definition getitem (l : list Z) (i : Z) : option Z :=
  let n := Z.of_nat (length l) in
  let j := if bool_decide (i < 0) then i + n else i in
  if bool_decide (0 ≤ j < n) then l !! Z.to_nat j else None.

(** [l[i] = x], same index rule. *)
Definition setitem (l : list Z) (i : Z) (x : Z) : option (list Z) :=
  let n := Z.of_nat (length l) in
  let j := if bool_decide (i < 0) then i + n else i in
  if bool_decide (0 ≤ j < n) then Some (<[Z.to_nat j := x]> l) else None.

(** [len(l)]. *)
Definition len (l : list Z) : Z := Z.of_nat (length l).

(** [[x] * n]: empty when [n] is not positive. *)
Definition list_repeat (x : Z) (n : Z) : list Z := replicate (Z.to_nat n) x.

(** [l.index(x)]: position of the first occurrence, [None] for
    [ValueError]. *)
Fixpoint index (l : list string) (x : string) : option Z :=
  match l with
  | [] => None
  | y :: l' =>
      if String.eqb y x then Some 0
      else match index l' x with
           | Some i => Some (1 + i)
           | None => None
           end
  end.

(** A [dict] keeps its keys in insertion order. *)
Definition keys (d : list (string * Z)) : list string := d.*1.
Definition values (d : list (string * Z)) : list Z := d.*2.

(** [k in d]. *)
Definition contains (d : list (string * Z)) (k : string) : bool :=
  existsb (String.eqb k) (keys d).

(** [d[k]], [None] for [KeyError]. *)
Fixpoint dict_get (d : list (string * Z)) (k : string) : option Z :=
  match d with
  | [] => None
  | (k', v) :: d' => if String.eqb k' k then Some v else dict_get d' k
  end.

(** [d[k] = v]: an existing key keeps its position, a new one goes last. *)
Fixpoint dict_set (d : list (string * Z)) (k : string) (v : Z)
  : list (string * Z) :=
  match d with
  | [] => [(k, v)]
  | (k', v') :: d' =>
      if String.eqb k' k then (k', v) :: d' else (k', v') :: dict_set d' k v
  end.

End Py.

(** ** Methods as state-and-exception computations

    A raised exception leaves the mutations done so far in place, as in
    Python, so the final state is returned in both cases. *)

Definition M (A : Type) : Type := MIPSMemory → outcome A * MIPSMemory.

Definition ret {A} (a : A) : M A := λ self, (Return a, self).

Definition bind {A B} (c : M A) (k : A → M B) : M B :=
  λ self,
    match c self with
    | (Return a, self') => k a self'
    | (Raise e, self') => (Raise e, self')
    end.

Definition raise {A} (e : exn) : M A := λ self, (Raise e, self).

Definition get_self : M MIPSMemory := λ self, (Return self, self).

(** Field assignment on the object. *)
Definition with_memory (self : MIPSMemory) (l : list Z) : MIPSMemory :=
  {| config := config self; memory := l; data_section := data_section self |}.

Definition with_data_section (self : MIPSMemory) (d : list (string * Z))
  : MIPSMemory :=
  {| config := config self; memory := memory self; data_section := d |}.

Definition put_memory (l : list Z) : M unit :=
  λ self, (Return (), with_memory self l).

Definition put_data_section (d : list (string * Z)) : M unit :=
  λ self, (Return (), with_data_section self d).

(** [try: body except MemoryError as e: handler e]; other exceptions
    propagate. *)
Definition try_except_MemoryError {A}
    (body : M A) (handler : MemoryErrorMessage → M A) : M A :=
  λ self,
    match body self with
    | (Raise (MemoryError e), self') => handler e self'
    | r => r
    end.

#[global] Instance M_ret : MRet M := @ret.
#[global] Instance M_bind : MBind M := λ A B k c, bind c k.

(** [a // b] and [a % b]. *)
Definition floordiv (a b : Z) : M Z :=
  if bool_decide (b = 0) then raise ZeroDivisionError else ret (a `div` b).

Definition modulo (a b : Z) : M Z :=
  if bool_decide (b = 0) then raise ZeroDivisionError else ret (a `mod` b).

(** [self.memory[i]] *)
Definition memory_getitem (i : Z) : M Z :=
  self ← get_self;
  match Py.getitem (memory self) i with
  | Some x => ret x
  | None => raise IndexError
  end.

(** [self.memory[i] = x] *)
Definition memory_setitem (i : Z) (x : Z) : M unit :=
  self ← get_self;
  match Py.setitem (memory self) i x with
  | Some l => put_memory l
  | None => raise IndexError
  end.

(** [for i, x in enumerate(l, start): body i x] *)
Fixpoint for_enumerate (start : Z) (l : list Z) (body : Z → Z → M unit)
  : M unit :=
  match l with
  | [] => ret ()
  | x :: l' => body start x;; for_enumerate (start + 1) l' body
  end.

(** [MIPSMemory(base_address, size)] *)
Definition __init__ (base_address size : Z) : MIPSMemory :=
  {| config := {| base_address := base_address; size := size;
                  word_size := 4 |};
     memory := Py.list_repeat 0 (size `div` 2);
     data_section := [] |}.

Definition _validate_address (address : Z) : M unit :=
  self ← get_self;
  r ← modulo address (word_size (config self));
  if negb (bool_decide (r = 0)) then
    raise (MemoryError (Unaligned address))
  else
    let relative_address := address - base_address (config self) in
    index ← floordiv relative_address (word_size (config self));
    if negb (bool_decide (0 ≤ index < Py.len (memory self))) then
      if negb (bool_decide (0 ≤ address < base_address (config self))) then
        raise (MemoryError (OutOfBounds address))
      else ret ()
    else ret ().

(** The [try] block of [read_word]. *)
Definition read_word_try (address : Z) : M Z :=
  _validate_address address;;
  self ← get_self;
  index ← floordiv (address - base_address (config self))
                    (word_size (config self));
  memory_getitem index.

(** The [except MemoryError as e] block of [read_word]. *)
Definition read_word_except (address : Z) (e : MemoryErrorMessage) : M Z :=
  self ← get_self;
  if bool_decide (0 ≤ address < base_address (config self)) then
    index ← floordiv address (word_size (config self));
    if bool_decide (0 ≤ index < Py.len (memory self)) then
      memory_getitem index
    else raise (MemoryError e)
  else raise (MemoryError e).

Definition read_word (address : Z) : M Z :=
  try_except_MemoryError (read_word_try address) (read_word_except address).

Definition write_word (address value : Z) : M unit :=
  self ← get_self;
  let relative_address := address - base_address (config self) in
  r ← modulo relative_address (word_size (config self));
  if negb (bool_decide (r = 0)) then
    raise (MemoryError (Unaligned address))
  else
    index ← floordiv relative_address (word_size (config self));
    if bool_decide (0 ≤ index < Py.len (memory self)) then
      memory_setitem index (Z.land value 0xFFFF)
    else
      if bool_decide (0 ≤ address < base_address (config self)) then
        index ← floordiv address (word_size (config self));
        if bool_decide (0 ≤ index < Py.len (memory self)) then
          memory_setitem index (Z.land value 0xFFFF)
        else raise (MemoryError (OutOfBounds address))
      else raise (MemoryError (OutOfBounds address)).

Definition is_valid_address (address : Z) : M bool :=
  self ← get_self;
  let relative_address := address - base_address (config self) in
  r ← modulo relative_address (word_size (config self));
  if negb (bool_decide (r = 0)) then ret false
  else
    index ← floordiv relative_address (word_size (config self));
    if bool_decide (0 ≤ index < Py.len (memory self)) then ret true
    else
      if bool_decide (0 ≤ address < base_address (config self)) then
        index ← floordiv address (word_size (config self));
        ret (bool_decide (0 ≤ index < Py.len (memory self)))
      else ret false.

(** The body of the loop of [allocate_data]. *)
Definition allocate_data_body (i value : Z) : M unit :=
  self ← get_self;
  if bool_decide (i < Py.len (memory self)) then memory_setitem i value
  else ret ().

Definition allocate_data (data : list (string * Z)) : M unit :=
  put_data_section data;;
  for_enumerate 0 (Py.values data) allocate_data_body.

Definition update_data_memory (var_name : string) (value : Z) : M unit :=
  self ← get_self;
  if Py.contains (data_section self) var_name then
    match Py.index (Py.keys (data_section self)) var_name with
    | None => raise ValueError
    | Some variable_index =>
        if bool_decide (0 ≤ variable_index < Py.len (memory self)) then
          memory_setitem variable_index value;;
          self ← get_self;
          put_data_section (Py.dict_set (data_section self) var_name value)
        else ret ()
    end
  else ret ().

Definition get_data_memory_values : M (list Z) :=
  self ← get_self;
  ret (memory self).

(** ** States used in the examples *)

(** [MIPSMemory(8, 8)]: four cells, base address a multiple of the word
    size. *)
Definition mem_8_8 : MIPSMemory := __init__ 8 8.

(** [MIPSMemory(2, 8)]: four cells, base address not a multiple of the
    word size. *)
Definition mem_2_8 : MIPSMemory := __init__ 2 8.

(** [MIPSMemory(6, 8)] after [write_word(18, 13)], which fills the last
    cell through the primary window. *)
Definition mem_6_8 : MIPSMemory := (write_word 18 13 (__init__ 6 8)).2.

(** [MIPSMemory(100, 8)]: the base lies far above the four cells. *)
Definition mem_100_8 : MIPSMemory := __init__ 100 8.

(** [MIPSMemory(8, 8)] after [allocate_data({"x":1,"y":2,"z":3})]. *)
Definition mem_xyz : MIPSMemory :=
  (allocate_data [("x", 1); ("y", 2); ("z", 3)]%string mem_8_8).2.

(** * Properties *)

(** ** Python indexing *)

Section indexing.
Implicit Types (l : list Z) (i x : Z).

Lemma getitem_nonneg l i :
  0 ≤ i < Py.len l → Py.getitem l i = l !! Z.to_nat i.
Proof.
  intros Hi. unfold Py.getitem, Py.len in *.
  repeat case_bool_decide; try lia; done.
Qed.

Lemma getitem_negative l i :
  i < 0 → 0 ≤ Py.len l + i →
  Py.getitem l i = l !! Z.to_nat (Py.len l + i).
Proof.
  intros Hi Hj. unfold Py.getitem, Py.len in *.
  repeat case_bool_decide; try lia. f_equal. lia.
Qed.

Lemma getitem_below l i : Py.len l + i < 0 → Py.getitem l i = None.
Proof.
  intros Hi. unfold Py.getitem, Py.len in *.
  repeat case_bool_decide; try lia; done.
Qed.

Lemma setitem_nonneg l i x :
  0 ≤ i < Py.len l → Py.setitem l i x = Some (<[Z.to_nat i := x]> l).
Proof.
  intros Hi. unfold Py.setitem, Py.len in *.
  repeat case_bool_decide; try lia; done.
Qed.

Lemma lookup_in_range l i :
  0 ≤ i < Py.len l → ∃ x, l !! Z.to_nat i = Some x.
Proof.
  intros Hi. apply lookup_lt_is_Some. unfold Py.len in Hi. lia.
Qed.

End indexing.

(** ** Running the monad *)

Lemma floordiv_run a b self :
  b ≠ 0 → floordiv a b self = (Return (a `div` b), self).
Proof. intros Hb. unfold floordiv. by rewrite bool_decide_eq_false_2. Qed.

Lemma modulo_run a b self :
  b ≠ 0 → modulo a b self = (Return (a `mod` b), self).
Proof. intros Hb. unfold modulo. by rewrite bool_decide_eq_false_2. Qed.

Lemma memory_getitem_run i x self :
  Py.getitem (memory self) i = Some x →
  memory_getitem i self = (Return x, self).
Proof.
  intros H. unfold memory_getitem, mbind, M_bind, bind, get_self.
  by rewrite H.
Qed.

Lemma memory_getitem_eq i self :
  memory_getitem i self
  = match Py.getitem (memory self) i with
    | Some x => (Return x, self)
    | None => (Raise IndexError, self)
    end.
Proof.
  unfold memory_getitem, mbind, M_bind, bind, get_self.
  by destruct (Py.getitem _ _).
Qed.

Lemma memory_setitem_run i x self :
  0 ≤ i < Py.len (memory self) →
  memory_setitem i x self
  = (Return (), with_memory self (<[Z.to_nat i := x]> (memory self))).
Proof.
  intros H. unfold memory_setitem, mbind, M_bind, bind, get_self.
  by rewrite setitem_nonneg.
Qed.

(** Unfolds the sequencing operators, leaving the primitive steps. *)
Ltac unseq := unfold mbind, M_bind, mret, M_ret, bind, ret, raise, get_self.

(** Runs a method body: arithmetic steps whose divisor is known to be
    non-zero are executed, every test is split on, and the branches that the
    arithmetic context rules out are discarded. *)
Ltac run :=
  repeat (cbv beta iota zeta;
          first [ rewrite modulo_run by done
                | rewrite floordiv_run by done
                | rewrite memory_setitem_run by done
                | case_bool_decide; cbn [negb] ]);
  cbv beta iota zeta; unfold Py.len in *; try lia; try done.

(** ** Address validation and word access *)

Section addressing.
Variable self : MIPSMemory.
Implicit Types (a v x : Z).

Local Abbreviation base := (base_address (config self)).
Local Abbreviation ws := (word_size (config self)).
Local Abbreviation cells := (memory self).

Lemma validate_unaligned a :
  ws ≠ 0 → a `mod` ws ≠ 0 →
  _validate_address a self = (Raise (MemoryError (Unaligned a)), self).
Proof.
  intros Hws Ha. unfold _validate_address. unseq.
  run.
Qed.

Lemma validate_aligned a :
  ws ≠ 0 → a `mod` ws = 0 →
  _validate_address a self
  = if bool_decide (0 ≤ (a - base) `div` ws < Py.len cells)
    then (Return (), self)
    else if bool_decide (0 ≤ a < base) then (Return (), self)
    else (Raise (MemoryError (OutOfBounds a)), self).
Proof.
  intros Hws Ha. unfold _validate_address. unseq.
  run.
Qed.

Lemma read_word_try_aligned a :
  ws ≠ 0 → a `mod` ws = 0 →
  0 ≤ (a - base) `div` ws < Py.len cells ∨ 0 ≤ a < base →
  read_word_try a self = memory_getitem ((a - base) `div` ws) self.
Proof.
  intros Hws Ha Hr. unfold read_word_try. unseq.
  rewrite validate_aligned by done. destruct Hr; run.
Qed.

Lemma read_word_primary a x :
  ws ≠ 0 → a `mod` ws = 0 → 0 ≤ (a - base) `div` ws < Py.len cells →
  cells !! Z.to_nat ((a - base) `div` ws) = Some x →
  read_word a self = (Return x, self).
Proof.
  intros Hws Ha Hi Hx. unfold read_word, try_except_MemoryError.
  rewrite read_word_try_aligned by auto.
  erewrite memory_getitem_run; [done|]. by rewrite getitem_nonneg.
Qed.

Lemma write_word_unaligned a v :
  ws ≠ 0 → (a - base) `mod` ws ≠ 0 →
  write_word a v self = (Raise (MemoryError (Unaligned a)), self).
Proof.
  intros Hws Ha. unfold write_word. unseq.
  run.
Qed.

Lemma write_word_primary a v :
  ws ≠ 0 → (a - base) `mod` ws = 0 → 0 ≤ (a - base) `div` ws < Py.len cells →
  write_word a v self
  = (Return (),
     with_memory self
       (<[Z.to_nat ((a - base) `div` ws) := Z.land v 0xFFFF]> cells)).
Proof.
  intros Hws Ha Hi. unfold write_word. unseq.
  run.
Qed.

Lemma write_word_fallback a v :
  ws ≠ 0 → (a - base) `mod` ws = 0 →
  ¬ (0 ≤ (a - base) `div` ws < Py.len cells) →
  0 ≤ a < base → 0 ≤ a `div` ws < Py.len cells →
  write_word a v self
  = (Return (),
     with_memory self (<[Z.to_nat (a `div` ws) := Z.land v 0xFFFF]> cells)).
Proof.
  intros Hws Ha Hp Hb Hi. unfold write_word. unseq.
  run.
Qed.

(** With a positive word size the primary index of an address below the
    base is negative. *)
Lemma primary_index_below_base a :
  0 < ws → a < base → (a - base) `div` ws < 0.
Proof. intros Hws Ha. apply Z.div_lt_upper_bound; lia. Qed.

End addressing.

(** ** Claims about address translation *)

(** C1 (counterexample).  With [base_address = 6] the address [4] meets
    the claim's conditions (below the base, a multiple of the word size,
    [4 // 4 = 1] a cell index), yet [read_word(4)] does not return cell 1
    and [write_word(4, 7)] does not succeed. *)
Lemma C1_counterexample :
  (0 ≤ 4 < base_address (config mem_6_8)
   ∧ 4 `mod` word_size (config mem_6_8) = 0
   ∧ 0 ≤ 4 `div` word_size (config mem_6_8) < Py.len (memory mem_6_8))
  ∧ ¬ (∃ x, memory mem_6_8 !! Z.to_nat (4 `div` word_size (config mem_6_8))
            = Some x
            ∧ (read_word 4 mem_6_8).1 = Return x)
  ∧ ¬ (∃ self', write_word 4 7 mem_6_8 = (Return (), self')).
Proof.
  split; [by vm_compute|]. split.
  - intros (x & Hx & Hr). vm_compute in Hx, Hr. congruence.
  - intros (self' & Hw). vm_compute in Hw. congruence.
Qed.

(** What the code does at that input: the read yields the last cell (13)
    although cell 1 holds 0, and the write is rejected as unaligned. *)
Example mem_6_8_address_4 :
  memory mem_6_8 = [0; 0; 0; 13]
  ∧ read_word 4 mem_6_8 = (Return 13, mem_6_8)
  ∧ write_word 4 7 mem_6_8 = (Raise (MemoryError (Unaligned 4)), mem_6_8).
Proof. by vm_compute. Qed.

(** C1 (amended).  For every address [a] with [0 <= a < base_address],
    [(a - base_address) mod word_size == 0] and [a / word_size] a cell
    index, [write_word(a, v)] goes through the secondary tier: it stores
    [v & 0xFFFF] into cell [a / word_size], changes nothing else and does
    not raise. *)
Theorem C1_write_word_secondary (self : MIPSMemory) (a v : Z) :
  0 < word_size (config self) →
  0 ≤ a < base_address (config self) →
  (a - base_address (config self)) `mod` word_size (config self) = 0 →
  0 ≤ a `div` word_size (config self) < Py.len (memory self) →
  write_word a v self
  = (Return (),
     with_memory self
       (<[Z.to_nat (a `div` word_size (config self)) := Z.land v 0xFFFF]>
          (memory self))).
Proof.
  intros Hws Ha Hal Hi.
  pose proof (primary_index_below_base self a Hws (proj2 Ha)).
  apply write_word_fallback; try done; lia.
Qed.

Lemma C1_write_word_secondary_witness :
  write_word 0 0x1FFFF mem_8_8
  = (Return (), with_memory mem_8_8 [0xFFFF; 0; 0; 0]).
Proof. by apply (C1_write_word_secondary mem_8_8 0 0x1FFFF). Defined.

(** C2.  For an address below the base that is a multiple of the word
    size, validation succeeds, so the [try] block of [read_word] raises no
    [MemoryError] and the [except] block is never entered; the primary
    index is negative and Python indexes from the end: the result is cell
    [cell_count + index] when that is not negative, an [IndexError]
    otherwise. *)
Theorem C2_read_word_below_base (self : MIPSMemory) (a : Z) :
  0 < word_size (config self) →
  0 ≤ a < base_address (config self) →
  a `mod` word_size (config self) = 0 →
  let index :=
    (a - base_address (config self)) `div` word_size (config self) in
  _validate_address a self = (Return (), self)
  ∧ (∀ e, (read_word_try a self).1 ≠ Raise (MemoryError e))
  ∧ read_word a self = read_word_try a self
  ∧ index < 0
  ∧ (0 ≤ Py.len (memory self) + index →
     ∃ x, memory self !! Z.to_nat (Py.len (memory self) + index) = Some x
          ∧ read_word a self = (Return x, self))
  ∧ (Py.len (memory self) + index < 0 →
     read_word a self = (Raise IndexError, self)).
Proof.
  intros Hws Ha Hal index.
  assert (Hneg : index < 0) by (by apply primary_index_below_base; lia).
  assert (Htry : read_word_try a self = memory_getitem index self)
    by (apply read_word_try_aligned; auto with lia).
  pose proof (memory_getitem_eq index self) as Hget.
  assert (Hread : read_word a self = read_word_try a self).
  { unfold read_word, try_except_MemoryError. rewrite Htry, Hget.
    by destruct (Py.getitem _ _). }
  split; [rewrite validate_aligned by lia; run|].
  split; [intros e; rewrite Htry, Hget; by destruct (Py.getitem _ _)|].
  split; [done|]. split; [done|]. rewrite Hread, Htry, Hget. split.
  - intros Hj. rewrite getitem_negative by done.
    destruct (lookup_in_range (memory self) (Py.len (memory self) + index))
      as [x Hx]; [lia|].
    exists x. by rewrite Hx.
  - intros Hj. by rewrite getitem_below.
Qed.

Lemma C2_read_word_below_base_witness :
  read_word 0 (with_memory mem_8_8 [10; 11; 12; 13])
  = (Return 12, with_memory mem_8_8 [10; 11; 12; 13])
  ∧ read_word 0 mem_100_8 = (Raise IndexError, mem_100_8).
Proof.
  split.
  - destruct (C2_read_word_below_base (with_memory mem_8_8 [10; 11; 12; 13]) 0)
      as (_ & _ & _ & _ & Hin & _); [by vm_compute..|].
    destruct Hin as (x & Hx & Hr); [by vm_compute|].
    vm_compute in Hx. injection Hx as <-. exact Hr.
  - destruct (C2_read_word_below_base mem_100_8 0)
      as (_ & _ & _ & _ & _ & Hout); [by vm_compute..|].
    apply Hout. by vm_compute.
Defined.

(** C3 (the code at the failing input).  On [MIPSMemory(2, 8)] the
    address 2 is the first primary address (offset 0, index 0):
    [is_valid_address(2)] is [True] and [write_word(2, 5)] stores 5 into
    cell 0, yet the following [read_word(2)] raises the unaligned error
    instead of returning 5. *)
Theorem C3_round_trip_fails_at_base_2 :
  ((2 - base_address (config mem_2_8)) `mod` word_size (config mem_2_8) = 0
   ∧ 0 ≤ (2 - base_address (config mem_2_8)) `div` word_size (config mem_2_8)
       < Py.len (memory mem_2_8))
  ∧ is_valid_address 2 mem_2_8 = (Return true, mem_2_8)
  ∧ write_word 2 5 mem_2_8 = (Return (), with_memory mem_2_8 [5; 0; 0; 0])
  ∧ read_word 2 (with_memory mem_2_8 [5; 0; 0; 0])
    = (Raise (MemoryError (Unaligned 2)), with_memory mem_2_8 [5; 0; 0; 0])
  ∧ ¬ (∃ self', write_word 2 5 mem_2_8 = (Return (), self')
                ∧ (read_word 2 self').1 = Return (Z.land 5 0xFFFF)).
Proof.
  split; [by vm_compute|]. do 3 (split; [by vm_compute|]).
  intros (self' & Hw & Hr). vm_compute in Hw.
  injection Hw as <-. vm_compute in Hr. congruence.
Qed.

(** The round trip on the addresses where the guard of [read_word] and
    the guard of [write_word] agree. *)
Lemma write_then_read_primary (self : MIPSMemory) (a v : Z) :
  word_size (config self) ≠ 0 →
  a `mod` word_size (config self) = 0 →
  (a - base_address (config self)) `mod` word_size (config self) = 0 →
  0 ≤ (a - base_address (config self)) `div` word_size (config self)
    < Py.len (memory self) →
  ∃ self', write_word a v self = (Return (), self')
           ∧ read_word a self' = (Return (Z.land v 0xFFFF), self').
Proof.
  intros Hws Ha Hrel Hi. eexists. split; [by apply write_word_primary|].
  apply read_word_primary; cbn; try done.
  - unfold Py.len in *. by rewrite length_insert.
  - apply list_lookup_insert_eq. unfold Py.len in Hi. lia.
Qed.

(** C4 (the code where the claim fails).  On a base address that is not a
    multiple of a positive word size, take any address whose offset from
    the base is a multiple of the word size.  The alignment test of
    [write_word] passes, as the claim says, but the validation run by
    [read_word] tests the address itself and raises the unaligned error.
    When the primary index is a cell index, [is_valid_address] answers
    [True] and [write_word] succeeds, while [read_word] fails with the
    unaligned error: the primary window can be written and not read. *)
Theorem C4_read_guard_rejects_primary_window (self : MIPSMemory) (a v : Z) :
  0 < word_size (config self) →
  base_address (config self) `mod` word_size (config self) ≠ 0 →
  (a - base_address (config self)) `mod` word_size (config self) = 0 →
  (write_word a v self).1 ≠ Raise (MemoryError (Unaligned a))
  ∧ _validate_address a self = (Raise (MemoryError (Unaligned a)), self)
  ∧ (0 ≤ (a - base_address (config self)) `div` word_size (config self)
       < Py.len (memory self) →
     is_valid_address a self = (Return true, self)
     ∧ (∃ self', write_word a v self = (Return (), self'))
     ∧ read_word a self = (Raise (MemoryError (Unaligned a)), self)).
Proof.
  intros Hws Hbase Hrel.
  assert (Hnz : word_size (config self) ≠ 0) by lia.
  assert (Ha : a `mod` word_size (config self) ≠ 0).
  { intros Ha. apply Hbase. apply Z.mod_divide; [lia|].
    apply Z.mod_divide in Ha; [|lia]. apply Z.mod_divide in Hrel; [|lia].
    replace (base_address (config self))
      with (a - (a - base_address (config self))) by lia.
    by apply Z.divide_sub_r. }
  split; [|split].
  - unfold write_word. unseq. run; by cbn.
  - apply validate_unaligned; [lia|done].
  - intros Hi.
    assert (base_address (config self) ≤ a).
    { destruct (decide (base_address (config self) ≤ a)); [done|].
      pose proof (primary_index_below_base self a Hws). lia. }
    split; [unfold is_valid_address; unseq; run|].
    split; [eexists; apply write_word_primary; done || lia|].
    unfold read_word, try_except_MemoryError, read_word_try. unseq.
    rewrite validate_unaligned by (done || lia). cbv beta iota.
    unfold read_word_except. unseq. run.
Qed.

Lemma C4_read_guard_rejects_primary_window_witness :
  (write_word 2 5 mem_2_8).1 ≠ Raise (MemoryError (Unaligned 2))
  ∧ _validate_address 2 mem_2_8 = (Raise (MemoryError (Unaligned 2)), mem_2_8)
  ∧ is_valid_address 2 mem_2_8 = (Return true, mem_2_8)
  ∧ read_word 2 mem_2_8 = (Raise (MemoryError (Unaligned 2)), mem_2_8).
Proof.
  destruct (C4_read_guard_rejects_primary_window mem_2_8 2 5)
    as (Hw & Hv & Hin); [by vm_compute..|].
  destruct Hin as (Hp & _ & Hr); [by vm_compute|].
  split; [exact Hw|]. split; [exact Hv|]. split; [exact Hp | exact Hr].
Defined.

(** C5 (counterexample).  With [base_address = 6] the address [4] passes
    the secondary check as the claim words it (below the base, a multiple of
    the word size, [4 / 4 = 1] a cell index), yet [is_valid_address(4)] is
    [False]: the claimed equivalence fails. *)
Lemma C5_counterexample :
  ¬ ((is_valid_address 4 mem_6_8).1 = Return true
     ↔ ((4 - base_address (config mem_6_8)) `mod` word_size (config mem_6_8) = 0
        ∧ 0 ≤ (4 - base_address (config mem_6_8))
                `div` word_size (config mem_6_8)
            < Py.len (memory mem_6_8))
       ∨ (0 ≤ 4 < base_address (config mem_6_8)
          ∧ 4 `mod` word_size (config mem_6_8) = 0
          ∧ 0 ≤ 4 `div` word_size (config mem_6_8) < Py.len (memory mem_6_8))).
Proof.
  intros [_ H]. assert (Hr : (is_valid_address 4 mem_6_8).1 = Return true).
  { apply H. right. by vm_compute. }
  vm_compute in Hr. congruence.
Qed.

(** C5 (amended).  [is_valid_address(a)] never raises and leaves the
    object unchanged; it returns [True] if and only if the offset
    [a - base_address] is a multiple of the word size and either the primary
    index is a cell index, or [0 <= a < base_address] and [a / word_size] is
    a cell index; every failure, misalignment included, is a plain
    [False]. *)
Theorem C5_is_valid_address (self : MIPSMemory) (a : Z) :
  word_size (config self) ≠ 0 →
  ∃ b : bool,
    is_valid_address a self = (Return b, self)
    ∧ (b = true
       ↔ (a - base_address (config self)) `mod` word_size (config self) = 0
         ∧ (0 ≤ (a - base_address (config self)) `div` word_size (config self)
              < Py.len (memory self)
            ∨ (0 ≤ a < base_address (config self)
               ∧ 0 ≤ a `div` word_size (config self) < Py.len (memory self)))).
Proof.
  intros Hws. unfold is_valid_address. unseq. run.
  all: eexists; (split; [reflexivity|]).
  all: try rewrite bool_decide_eq_true.
  all: unfold Py.len; intuition (done || lia).
Qed.

Lemma C5_is_valid_address_witness :
  ∃ b : bool, is_valid_address 0 mem_8_8 = (Return b, mem_8_8) ∧ b = true.
Proof.
  destruct (C5_is_valid_address mem_8_8 0) as (b & Hr & Hb); [done|].
  exists b. split; [exact Hr|]. apply Hb.
  split; [by vm_compute | right; by vm_compute].
Defined.

(** ** Truncation on write, raw values on read *)

(** A successful [write_word] changes one cell, and what it stores there
    is the value masked to its low 16 bits. *)
Lemma write_word_stores_masked (self self' : MIPSMemory) (a v : Z) :
  write_word a v self = (Return (), self') →
  ∃ i : nat, (i < length (memory self))%nat
    ∧ self' = with_memory self (<[i := Z.land v 0xFFFF]> (memory self)).
Proof.
  destruct (decide (word_size (config self) = 0)) as [Hz|Hws].
  { unfold write_word, modulo. unseq. rewrite Hz. by vm_compute. }
  unfold write_word. unseq. run.
  - intros [= <-]. eexists. split; [|done]. lia.
  - intros [= <-]. eexists. split; [|done]. lia.
Qed.

(** A successful [read_word] returns a cell as it is stored. *)
Lemma read_word_raw (self self' : MIPSMemory) (a x : Z) :
  read_word a self = (Return x, self') → ∃ i : nat, memory self !! i = Some x.
Proof.
  unfold read_word, try_except_MemoryError, read_word_try, read_word_except,
    _validate_address, floordiv, modulo.
  unseq.
  repeat (case_bool_decide; cbn [negb]; cbv beta iota zeta; try done).
  all: rewrite ?memory_getitem_eq; unfold Py.getitem.
  all: repeat (case_bool_decide; cbv beta iota zeta; try done).
  all: repeat match goal with
         | |- context [memory ?s !! ?i] =>
             destruct (memory s !! i) eqn:?; try done
         end.
  all: intros [= <- <-]; eauto.
Qed.

(** C6 (the code at the failing input).  On [MIPSMemory(8, 8)] the address
    0 is accepted by both operations; [write_word(0, 0x1FFFF)] stores
    [0xFFFF] into cell 0, and the following [read_word(0)] returns 0, the
    content of cell 2, not [0xFFFF]. *)
Theorem C6_truncated_write_not_read_back :
  ∃ self',
    write_word 0 0x1FFFF mem_8_8 = (Return (), self')
    ∧ memory self' = [0xFFFF; 0; 0; 0]
    ∧ read_word 0 self' = (Return 0, self')
    ∧ Z.land 0x1FFFF 0xFFFF = 0xFFFF.
Proof. eexists. by vm_compute. Qed.

(** ** Operations that only read *)

(** C9.  [read_word] leaves the object (storage array, data segment and
    configuration) as it found it, whether it returns or raises; so do
    the validation it runs, [is_valid_address] and
    [get_data_memory_values]: of the operations that are not data-segment
    loading, only [write_word] assigns to a storage cell. *)
Theorem C9_read_only_operations (self : MIPSMemory) (a : Z) :
  (read_word a self).2 = self
  ∧ (_validate_address a self).2 = self
  ∧ (is_valid_address a self).2 = self
  ∧ (get_data_memory_values self).2 = self.
Proof.
  assert (Hval : (_validate_address a self).2 = self).
  { unfold _validate_address, floordiv, modulo. unseq.
    by repeat (case_bool_decide; cbn [negb]). }
  split; [|split; [done|split; [|done]]].
  - unfold read_word, try_except_MemoryError, read_word_try, read_word_except,
      _validate_address, floordiv, modulo.
    unseq.
    repeat (case_bool_decide; cbn [negb]; cbv beta iota zeta; try done).
    all: rewrite ?memory_getitem_eq; by repeat destruct (Py.getitem _ _).
  - unfold is_valid_address, floordiv, modulo. unseq.
    by repeat (case_bool_decide; cbn [negb]).
Qed.

(** [write_word] does assign to the storage array. *)
Example write_word_mutates :
  memory (write_word 8 7 mem_8_8).2 = [7; 0; 0; 0]
  ∧ memory mem_8_8 = [0; 0; 0; 0].
Proof. by vm_compute. Qed.

(** ** The data segment *)

Section dict.
Implicit Types (d : list (string * Z)) (l : list string) (k : string).

Lemma index_lookup l (r : nat) k :
  NoDup l → l !! r = Some k → Py.index l k = Some (Z.of_nat r).
Proof.
  intros Hnd. revert r. induction Hnd as [|y l Hy Hnd IH]; intros r Hr.
  - done.
  - destruct r as [|r]; simpl in *.
    + injection Hr as ->. by rewrite String.eqb_refl.
    + destruct (String.eqb_spec y k) as [->|Hne].
      * exfalso. apply Hy. by eapply list_elem_of_lookup_2.
      * rewrite (IH r Hr). f_equal. lia.
Qed.

Lemma contains_elem_of d k : Py.contains d k = true ↔ k ∈ Py.keys d.
Proof.
  unfold Py.contains. rewrite existsb_exists. split.
  - intros (y & Hin & Heq). apply String.eqb_eq in Heq as ->.
    by apply list_elem_of_In.
  - intros Hin. exists k. split; [by apply list_elem_of_In|].
    apply String.eqb_refl.
Qed.

Lemma contains_not_elem_of d k : k ∉ Py.keys d → Py.contains d k = false.
Proof.
  intros Hk. destruct (Py.contains d k) eqn:E; [|done].
  by apply contains_elem_of in E.
Qed.

Lemma dict_set_keys d k v :
  k ∈ Py.keys d → Py.keys (Py.dict_set d k v) = Py.keys d.
Proof.
  unfold Py.keys. induction d as [|[k' v'] d IH]; simpl; intros Hk.
  - by apply elem_of_nil in Hk.
  - destruct (String.eqb_spec k' k) as [->|Hne]; [done|]. simpl.
    f_equal. apply IH. apply elem_of_cons in Hk as [->|Hk]; done.
Qed.

Lemma dict_get_set d k v : Py.dict_get (Py.dict_set d k v) k = Some v.
Proof.
  induction d as [|[k' v'] d IH]; simpl.
  - by rewrite String.eqb_refl.
  - destruct (String.eqb_spec k' k) as [->|Hne]; simpl.
    + by rewrite String.eqb_refl.
    + by destruct (String.eqb_spec k' k).
Qed.

Lemma dict_get_set_ne d k k' v :
  k' ≠ k → Py.dict_get (Py.dict_set d k v) k' = Py.dict_get d k'.
Proof.
  intros Hne. induction d as [|[k0 v0] d IH]; simpl.
  - by destruct (String.eqb_spec k k').
  - destruct (String.eqb_spec k0 k) as [->|Hk0]; simpl.
    + by destruct (String.eqb_spec k k').
    + by rewrite IH.
Qed.

End dict.

Lemma with_memory_id (self : MIPSMemory) : with_memory self (memory self) = self.
Proof. by destruct self. Qed.

(** One iteration of the loop of [allocate_data] at rank [j]. *)
Lemma allocate_data_body_run (j : nat) (v : Z) (self : MIPSMemory) :
  allocate_data_body (Z.of_nat j) v self
  = (Return (),
     if bool_decide (j < length (memory self))%nat
     then with_memory self (<[j := v]> (memory self))
     else self).
Proof.
  unfold allocate_data_body. unseq.
  repeat case_bool_decide; unfold Py.len in *; try lia; [|done].
  rewrite memory_setitem_run by (unfold Py.len; lia). by rewrite Nat2Z.id.
Qed.

(** The loop of [allocate_data], started at rank [j]: the cells below [j]
    and those past the last value are kept, the values that fit are laid
    out from cell [j] on. *)
Lemma allocate_loop (vals : list Z) :
  ∀ (j : nat) (self : MIPSMemory),
    for_enumerate (Z.of_nat j) vals allocate_data_body self
    = (Return (),
       with_memory self
         (take j (memory self)
          ++ take (length (memory self) - j) vals
          ++ drop (j + length vals) (memory self))).
Proof.
  induction vals as [|v vals IH]; intros j self.
  - cbn [for_enumerate]. unfold mret, M_ret, ret.
    rewrite Nat.add_0_r, take_nil. cbn [app].
    by rewrite take_drop, with_memory_id.
  - cbn [for_enumerate]. unseq. rewrite allocate_data_body_run.
    replace (Z.of_nat j + 1) with (Z.of_nat (S j)) by lia.
    rewrite IH. case_bool_decide as Hj.
    + unfold with_memory. cbn [memory config data_section]. do 2 f_equal.
      rewrite length_insert.
      rewrite (take_S_r _ j v) by (apply list_lookup_insert_eq; lia).
      rewrite take_insert_ge by lia.
      rewrite drop_insert_lt by lia.
      replace (length (memory self) - j)%nat
        with (S (length (memory self) - S j)) by lia.
      cbn [take length]. rewrite <- app_assoc. cbn [app].
      do 4 f_equal. lia.
    + do 2 f_equal.
      rewrite (take_ge (memory self) j), (take_ge (memory self) (S j)) by lia.
      replace (length (memory self) - j)%nat with 0%nat by lia.
      replace (length (memory self) - S j)%nat with 0%nat by lia.
      rewrite !take_0, !drop_ge by (cbn [length]; lia). done.
Qed.

(** [allocate_data] in closed form. *)
Lemma allocate_data_run (self : MIPSMemory) (d : list (string * Z)) :
  allocate_data d self
  = (Return (),
     {| config := config self;
        memory := take (length (memory self)) (Py.values d)
                  ++ drop (length d) (memory self);
        data_section := d |}).
Proof.
  unfold allocate_data, put_data_section. unseq.
  rewrite (allocate_loop (Py.values d) 0). unfold with_memory, with_data_section.
  cbn [memory config data_section take app].
  unfold Py.values. by rewrite Nat.sub_0_r, Nat.add_0_l, length_fmap.
Qed.

(** [update_data_memory] for a name that occupies rank [r], a cell index. *)
Lemma update_data_memory_run (self : MIPSMemory) (name : string) (v : Z)
    (r : nat) :
  NoDup (Py.keys (data_section self)) →
  Py.keys (data_section self) !! r = Some name →
  (r < length (memory self))%nat →
  update_data_memory name v self
  = (Return (),
     {| config := config self;
        memory := <[r := v]> (memory self);
        data_section := Py.dict_set (data_section self) name v |}).
Proof.
  intros Hnd Hr Hlt. unfold update_data_memory. unseq.
  rewrite (proj2 (contains_elem_of _ _)) by (by eapply list_elem_of_lookup_2).
  rewrite (index_lookup _ r) by done.
  rewrite bool_decide_eq_true_2 by (unfold Py.len; lia).
  rewrite memory_setitem_run by (unfold Py.len; lia).
  by rewrite Nat2Z.id.
Qed.

(** C7.  [allocate_data(mapping)] does not raise; afterwards the stored
    data segment is [mapping] itself, the storage array has its old length,
    every entry of rank [i < cell_count] has its value in cell [i], the
    entries of rank [>= cell_count] are written nowhere, and the cells past
    the last entry keep their contents.  Neither the configuration nor the
    address translation is consulted: the new array is a function of the
    old array and the mapping alone. *)
Theorem C7_allocate_data (self : MIPSMemory) (d : list (string * Z)) :
  ∃ cells' : list Z,
    allocate_data d self
    = (Return (), {| config := config self; memory := cells';
                     data_section := d |})
    ∧ cells' = take (length (memory self)) (Py.values d)
               ++ drop (length d) (memory self)
    ∧ length cells' = length (memory self)
    ∧ (∀ (i : nat) (k : string) (v : Z),
         d !! i = Some (k, v) → (i < length (memory self))%nat →
         cells' !! i = Some v)
    ∧ (∀ i : nat, (length d ≤ i)%nat → cells' !! i = memory self !! i).
Proof.
  eexists. split; [apply allocate_data_run|]. split; [done|].
  assert (Hlen : length (Py.values d) = length d)
    by (unfold Py.values; apply length_fmap).
  split; [|split].
  - rewrite length_app, length_take, length_drop. lia.
  - intros i k v Hd Hi.
    assert (i < length d)%nat by (by eapply lookup_lt_Some).
    rewrite lookup_app_l by (rewrite length_take; lia).
    rewrite lookup_take_lt by done.
    unfold Py.values. by rewrite list_lookup_fmap, Hd.
  - intros i Hi.
    destruct (decide (length (memory self) ≤ length d)%nat) as [Hle|Hgt].
    + rewrite drop_ge, app_nil_r by done.
      rewrite lookup_take_ge by lia. symmetry. apply lookup_ge_None. lia.
    + rewrite lookup_app_r by (rewrite length_take; lia).
      rewrite length_take, lookup_drop. f_equal. lia.
Qed.

Lemma C7_allocate_data_witness :
  ∃ cells' : list Z,
    allocate_data [("x", 1); ("y", 2); ("z", 3)]%string mem_100_8
    = (Return (),
       {| config := config mem_100_8; memory := cells';
          data_section := [("x", 1); ("y", 2); ("z", 3)]%string |})
    ∧ cells' !! 0%nat = Some 1 ∧ cells' !! 1%nat = Some 2
    ∧ cells' !! 2%nat = Some 3 ∧ cells' !! 3%nat = Some 0.
Proof.
  destruct (C7_allocate_data mem_100_8 [("x", 1); ("y", 2); ("z", 3)]%string)
    as (cells' & Hrun & _ & _ & Hin & Hout).
  exists cells'. split; [exact Hrun|].
  split; [apply (Hin 0%nat "x"%string 1); [reflexivity | vm_compute; lia]|].
  split; [apply (Hin 1%nat "y"%string 2); [reflexivity | vm_compute; lia]|].
  split; [apply (Hin 2%nat "z"%string 3); [reflexivity | vm_compute; lia]|].
  rewrite (Hout 3%nat) by (vm_compute; lia). reflexivity.
Defined.

(** The example of C7 for every base address: as soon as there are three
    cells, [allocate_data({"x":1,"y":2,"z":3})] puts 1, 2, 3 into cells 0,
    1, 2. *)
Lemma allocate_data_xyz (base size : Z) :
  6 ≤ size →
  take 3 (memory (allocate_data [("x", 1); ("y", 2); ("z", 3)]%string
                    (__init__ base size)).2)
  = [1; 2; 3].
Proof.
  intros Hsize. rewrite allocate_data_run. cbn -[Z.div].
  unfold Py.list_repeat. rewrite length_replicate.
  assert (3 ≤ size `div` 2) by (apply Z.div_le_lower_bound; lia).
  destruct (Z.to_nat (size `div` 2)) as [|[|[|n]]] eqn:E; try lia.
  reflexivity.
Qed.

(** With fewer cells than entries the surplus is dropped. *)
Example allocate_data_overflow :
  allocate_data [("x", 1); ("y", 2); ("z", 3)]%string (__init__ 8 4)
  = (Return (),
     {| config := config (__init__ 8 4); memory := [1; 2];
        data_section := [("x", 1); ("y", 2); ("z", 3)]%string |}).
Proof. by vm_compute. Qed.

(** C8.  If [name] is in the stored data segment at rank [r], a cell
    index, [update_data_memory(name, value)] overwrites cell [r] with
    [value], leaves every other cell as it was, sets the entry of [name] to
    [value] and keeps the other entries and the key order; if [name] is
    absent the call returns normally and the object is unchanged. *)
Theorem C8_update_data_memory (self : MIPSMemory) (name : string) (v : Z) :
  (∀ r : nat,
     NoDup (Py.keys (data_section self)) →
     Py.keys (data_section self) !! r = Some name →
     (r < length (memory self))%nat →
     ∃ self',
       update_data_memory name v self = (Return (), self')
       ∧ config self' = config self
       ∧ memory self' !! r = Some v
       ∧ length (memory self') = length (memory self)
       ∧ (∀ i : nat, i ≠ r → memory self' !! i = memory self !! i)
       ∧ Py.dict_get (data_section self') name = Some v
       ∧ (∀ k, k ≠ name →
               Py.dict_get (data_section self') k
               = Py.dict_get (data_section self) k)
       ∧ Py.keys (data_section self') = Py.keys (data_section self))
  ∧ (name ∉ Py.keys (data_section self) →
     update_data_memory name v self = (Return (), self)).
Proof.
  split.
  - intros r Hnd Hr Hlt. eexists.
    split; [by apply (update_data_memory_run self name v r)|].
    cbn [config memory data_section]. split; [done|].
    split; [by apply list_lookup_insert_eq|].
    split; [apply length_insert|].
    split; [intros i Hi; by apply list_lookup_insert_ne|].
    split; [apply dict_get_set|].
    split; [intros k Hk; by apply dict_get_set_ne|].
    apply dict_set_keys. by eapply list_elem_of_lookup_2.
  - intros Hk. unfold update_data_memory. unseq.
    by rewrite contains_not_elem_of.
Qed.

Lemma C8_update_data_memory_witness :
  (∃ self', update_data_memory "y" 99 mem_xyz = (Return (), self')
            ∧ memory self' !! 1%nat = Some 99
            ∧ memory self' !! 0%nat = Some 1
            ∧ memory self' !! 2%nat = Some 3)
  ∧ update_data_memory "q" 1 mem_xyz = (Return (), mem_xyz).
Proof.
  split.
  - destruct (proj1 (C8_update_data_memory mem_xyz "y" 99) 1%nat)
      as (self' & Hrun & _ & Hr & _ & Hother & _).
    + apply (bool_decide_unpack _). by vm_compute.
    + reflexivity.
    + vm_compute. lia.
    + exists self'. split; [exact Hrun|]. split; [exact Hr|].
      rewrite !Hother by lia. split; reflexivity.
  - apply (proj2 (C8_update_data_memory mem_xyz "q" 1)).
    apply (bool_decide_unpack _). by vm_compute.
Defined.

(** ** Values loaded from the data segment are not truncated *)

(** Both observers return a cell as it is stored. *)
Lemma cell_observed (self : MIPSMemory) (r : nat) (v : Z) :
  memory self !! r = Some v →
  (∃ cells, get_data_memory_values self = (Return cells, self)
            ∧ cells !! r = Some v)
  ∧ (∀ a, word_size (config self) ≠ 0 →
          a `mod` word_size (config self) = 0 →
          (a - base_address (config self)) `div` word_size (config self)
          = Z.of_nat r →
          read_word a self = (Return v, self)).
Proof.
  intros Hr. split.
  - exists (memory self). split; [|done]. by unfold get_data_memory_values.
  - intros a Hws Ha Hi. apply lookup_lt_Some in Hr as Hlt.
    apply read_word_primary; try done.
    + unfold Py.len. lia.
    + by rewrite Hi, Nat2Z.id.
Qed.

(** C10.  [allocate_data] and [update_data_memory] store the value [v] of
    an entry whose rank [r] is a cell index as it is, for every integer [v]
    and so also outside [0, 0xFFFF]: afterwards cell [r] holds [v],
    [get_data_memory_values] shows [v] at position [r], and [read_word] at
    a primary address of cell [r] returns [v]. *)
Theorem C10_data_segment_values_unmasked
    (self : MIPSMemory) (r : nat) (v : Z) :
  (r < length (memory self))%nat →
  (∀ (d : list (string * Z)) (k : string),
     d !! r = Some (k, v) →
     ∃ self',
       allocate_data d self = (Return (), self')
       ∧ config self' = config self
       ∧ memory self' !! r = Some v
       ∧ (∃ cells, get_data_memory_values self' = (Return cells, self')
                   ∧ cells !! r = Some v)
       ∧ (∀ a, word_size (config self) ≠ 0 →
               a `mod` word_size (config self) = 0 →
               (a - base_address (config self)) `div` word_size (config self)
               = Z.of_nat r →
               read_word a self' = (Return v, self')))
  ∧ (∀ name : string,
       NoDup (Py.keys (data_section self)) →
       Py.keys (data_section self) !! r = Some name →
       ∃ self',
         update_data_memory name v self = (Return (), self')
         ∧ config self' = config self
         ∧ memory self' !! r = Some v
         ∧ (∃ cells, get_data_memory_values self' = (Return cells, self')
                     ∧ cells !! r = Some v)
         ∧ (∀ a, word_size (config self) ≠ 0 →
                 a `mod` word_size (config self) = 0 →
                 (a - base_address (config self)) `div` word_size (config self)
                 = Z.of_nat r →
                 read_word a self' = (Return v, self'))).
Proof.
  intros Hlt. split.
  - intros d k Hd. eexists. split; [apply allocate_data_run|].
    split; [done|].
    match goal with |- ?P ∧ _ => assert (Hcell : P) end.
    { cbn [memory]. assert (r < length d)%nat by (by eapply lookup_lt_Some).
      assert (length (Py.values d) = length d)
        by (unfold Py.values; apply length_fmap).
      rewrite lookup_app_l by (rewrite length_take; lia).
      rewrite lookup_take_lt by done.
      unfold Py.values. by rewrite list_lookup_fmap, Hd. }
    split; [done|]. by apply cell_observed in Hcell.
  - intros name Hnd Hname. eexists.
    split; [by apply (update_data_memory_run self name v r)|].
    split; [done|].
    match goal with |- ?P ∧ _ => assert (Hcell : P) end.
    { cbn [memory]. by apply list_lookup_insert_eq. }
    split; [done|]. by apply cell_observed in Hcell.
Qed.

Lemma C10_data_segment_values_unmasked_witness :
  (∃ self', allocate_data [("big", 0x12345)]%string mem_8_8 = (Return (), self')
            ∧ read_word 8 self' = (Return 0x12345, self'))
  ∧ (∃ self', update_data_memory "x" (-1) mem_xyz = (Return (), self')
              ∧ read_word 8 self' = (Return (-1), self'))
  ∧ ¬ (0 ≤ 0x12345 ≤ 0xFFFF) ∧ ¬ (0 ≤ -1 ≤ 0xFFFF).
Proof.
  split; [|split; [|lia]].
  - destruct (C10_data_segment_values_unmasked mem_8_8 0 0x12345) as [Ha _].
    { vm_compute. lia. }
    destruct (Ha [("big", 0x12345)]%string "big"%string)
      as (self' & Hrun & _ & _ & _ & Hread); [reflexivity|].
    exists self'. split; [exact Hrun|]. by apply Hread.
  - destruct (C10_data_segment_values_unmasked mem_xyz 0 (-1)) as [_ Hu].
    { vm_compute. lia. }
    destruct (Hu "x"%string) as (self' & Hrun & _ & _ & _ & Hread).
    + apply (bool_decide_unpack _). by vm_compute.
    + reflexivity.
    + exists self'. split; [exact Hrun|]. by apply Hread.
Defined.

(** * Further properties of the word operations *)

(** ** Outcomes of [write_word] and [is_valid_address] *)

Section outcomes.
Variable self : MIPSMemory.
Implicit Types (a b v w x : Z).

Local Abbreviation base := (base_address (config self)).
Local Abbreviation ws := (word_size (config self)).
Local Abbreviation cells := (memory self).

(** [write_word] in normal form, for a non-zero word size. *)
Lemma write_word_run a v :
  ws ≠ 0 →
  write_word a v self
  = if bool_decide ((a - base) `mod` ws = 0) then
      if bool_decide (0 ≤ (a - base) `div` ws < Py.len cells) then
        (Return (),
         with_memory self
           (<[Z.to_nat ((a - base) `div` ws) := Z.land v 0xFFFF]> cells))
      else if bool_decide (0 ≤ a < base ∧ 0 ≤ a `div` ws < Py.len cells) then
        (Return (),
         with_memory self (<[Z.to_nat (a `div` ws) := Z.land v 0xFFFF]> cells))
      else (Raise (MemoryError (OutOfBounds a)), self)
    else (Raise (MemoryError (Unaligned a)), self).
Proof. intros Hws. unfold write_word. unseq. run. Qed.

Lemma write_word_zero_word_size a v :
  ws = 0 → write_word a v self = (Raise ZeroDivisionError, self).
Proof.
  intros Hws. unfold write_word, modulo. unseq.
  by rewrite bool_decide_eq_true_2.
Qed.

(** [is_valid_address] in normal form, for a non-zero word size. *)
Lemma is_valid_address_run a :
  ws ≠ 0 →
  is_valid_address a self
  = (Return
       (bool_decide ((a - base) `mod` ws = 0)
        && (bool_decide (0 ≤ (a - base) `div` ws < Py.len cells)
            || bool_decide (0 ≤ a < base ∧ 0 ≤ a `div` ws < Py.len cells))),
     self).
Proof. intros Hws. unfold is_valid_address. unseq. run. Qed.

(** X1.  For a non-zero word size, [write_word(a, v)] returns normally
    exactly when [is_valid_address(a)] answers [True]. *)
Theorem X1_write_word_iff_valid a v :
  ws ≠ 0 →
  (is_valid_address a self).1 = Return true
  ↔ ∃ self', write_word a v self = (Return (), self').
Proof.
  intros Hws. rewrite is_valid_address_run, write_word_run by done.
  repeat case_bool_decide; cbn; split; eauto; try done.
  all: by intros [? ?].
Qed.

(** X2.  When [write_word] raises, the object is left as it was; for a
    non-zero word size the exception is the unaligned error if the offset
    from the base is not a multiple of the word size and the out-of-bounds
    error otherwise, never an [IndexError]. *)
Theorem X2_write_word_failure a v e :
  (write_word a v self).1 = Raise e →
  (write_word a v self).2 = self
  ∧ (ws ≠ 0 →
     e = MemoryError (if bool_decide ((a - base) `mod` ws = 0)
                      then OutOfBounds a else Unaligned a)).
Proof.
  destruct (decide (ws = 0)) as [Hz|Hws].
  { rewrite write_word_zero_word_size by done. by cbn. }
  rewrite write_word_run by done.
  repeat case_bool_decide; cbn; try done.
  all: intros [= <-]; by split.
Qed.

(** X3.  On every path, raising or not, [write_word] keeps the
    configuration, the data segment and the number of cells. *)
Theorem X3_write_word_shape a v :
  config (write_word a v self).2 = config self
  ∧ data_section (write_word a v self).2 = data_section self
  ∧ length (memory (write_word a v self).2) = length cells.
Proof.
  destruct (decide (ws = 0)) as [Hz|Hws].
  { by rewrite write_word_zero_word_size. }
  rewrite write_word_run by done.
  repeat case_bool_decide; cbn; by rewrite ?length_insert.
Qed.

(** X4.  If every cell is a 16-bit value, it still is after
    [write_word], whatever the address and the value written. *)
Theorem X4_write_word_keeps_16_bits a v :
  Forall (λ x, 0 ≤ x ≤ 0xFFFF) cells →
  Forall (λ x, 0 ≤ x ≤ 0xFFFF) (memory (write_word a v self).2).
Proof.
  intros Hcells.
  assert (Hmask : 0 ≤ Z.land v 0xFFFF ≤ 0xFFFF).
  { change (Z.land v 0xFFFF) with (Z.land v (Z.ones 16)).
    rewrite Z.land_ones by lia.
    pose proof (Z.mod_pos_bound v (2 ^ 16) eq_refl) as Hb.
    change (2 ^ 16) with 65536 in *. lia. }
  destruct (decide (ws = 0)) as [Hz|Hws].
  { by rewrite write_word_zero_word_size. }
  rewrite write_word_run by done.
  repeat case_bool_decide; cbn; try done.
  all: apply Forall_insert; done.
Qed.

(** X5.  Two writes to the same address leave the object as the second
    alone does: the last write wins. *)
Theorem X5_write_word_last_wins a v w :
  write_word a w (write_word a v self).2 = write_word a w self.
Proof.
  destruct (decide (ws = 0)) as [Hz|Hws].
  { by rewrite (write_word_zero_word_size a v). }
  rewrite (write_word_run a v) by done.
  repeat case_bool_decide; cbn [snd]; try done.
  all: unfold write_word; unseq; cbn [config memory with_memory]; run.
  all: try (rewrite length_insert in *; lia).
  all: unfold with_memory; cbn; by rewrite list_insert_insert_eq.
Qed.

End outcomes.

Lemma X1_write_word_iff_valid_witness :
  ∃ self', write_word 12 7 mem_8_8 = (Return (), self').
Proof.
  apply (X1_write_word_iff_valid mem_8_8 12 7); [done | by vm_compute].
Defined.

Lemma X2_write_word_failure_witness :
  (write_word 9 7 mem_8_8).2 = mem_8_8
  ∧ (write_word 400 7 mem_8_8).1 = Raise (MemoryError (OutOfBounds 400)).
Proof.
  split.
  - apply (X2_write_word_failure mem_8_8 9 7 (MemoryError (Unaligned 9))).
    by vm_compute.
  - destruct (X2_write_word_failure mem_8_8 400 7 (MemoryError (OutOfBounds 400)))
      as [_ He]; by vm_compute.
Defined.

Lemma X4_write_word_keeps_16_bits_witness :
  Forall (λ x, 0 ≤ x ≤ 0xFFFF) (memory (write_word 8 0x1FFFF mem_8_8).2).
Proof.
  apply (X4_write_word_keeps_16_bits mem_8_8 8 0x1FFFF).
  vm_compute. repeat constructor; by vm_compute.
Defined.

(** ** Reads *)

Section read_word_run.
Variable self : MIPSMemory.
Implicit Types (a b v x : Z).

Local Abbreviation base := (base_address (config self)).
Local Abbreviation ws := (word_size (config self)).
Local Abbreviation cells := (memory self).

(** [read_word] at an address that is not a multiple of the word size:
    only the [except] block decides. *)
Lemma read_word_unaligned_run a :
  ws ≠ 0 → a `mod` ws ≠ 0 →
  read_word a self
  = if bool_decide (0 ≤ a < base ∧ 0 ≤ a `div` ws < Py.len cells)
    then memory_getitem (a `div` ws) self
    else (Raise (MemoryError (Unaligned a)), self).
Proof.
  intros Hws Ha. unfold read_word, try_except_MemoryError, read_word_try.
  unseq. rewrite validate_unaligned by done. cbv beta iota.
  unfold read_word_except. unseq. run.
Qed.

(** [read_word] at a multiple of the word size: only the [try] block
    decides. *)
Lemma read_word_aligned_run a :
  ws ≠ 0 → a `mod` ws = 0 →
  read_word a self
  = if bool_decide (0 ≤ (a - base) `div` ws < Py.len cells ∨ 0 ≤ a < base)
    then memory_getitem ((a - base) `div` ws) self
    else (Raise (MemoryError (OutOfBounds a)), self).
Proof.
  intros Hws Ha. case_bool_decide as Hr.
  - unfold read_word, try_except_MemoryError.
    rewrite read_word_try_aligned, memory_getitem_eq by done.
    by destruct (Py.getitem _ _).
  - unfold read_word, try_except_MemoryError, read_word_try. unseq.
    rewrite validate_aligned by done.
    rewrite !bool_decide_eq_false_2 by lia. cbv beta iota.
    unfold read_word_except. unseq. run.
Qed.

End read_word_run.

Section reads.
Variable self : MIPSMemory.
Implicit Types (a b v x : Z).

Local Abbreviation base := (base_address (config self)).
Local Abbreviation ws := (word_size (config self)).
Local Abbreviation cells := (memory self).

(** X6.  A write does not disturb the other cells: if [write_word(a, v)]
    succeeds through the primary window and [b] is a primary address of a
    different cell, [read_word(b)] returns afterwards what it returned
    before. *)
Theorem X6_read_other_cell_after_write a b v :
  ws ≠ 0 →
  (a - base) `mod` ws = 0 → 0 ≤ (a - base) `div` ws < Py.len cells →
  b `mod` ws = 0 → 0 ≤ (b - base) `div` ws < Py.len cells →
  (a - base) `div` ws ≠ (b - base) `div` ws →
  ∃ self' x,
    write_word a v self = (Return (), self')
    ∧ read_word b self = (Return x, self)
    ∧ read_word b self' = (Return x, self').
Proof.
  intros Hws Ha Hia Hb Hib Hne.
  destruct (lookup_in_range cells ((b - base) `div` ws) Hib) as [x Hx].
  eexists _, x. split; [by apply write_word_primary|].
  split; [by apply read_word_primary|].
  apply read_word_primary; cbn; try done.
  - unfold Py.len in *. by rewrite length_insert.
  - rewrite list_lookup_insert_ne by lia. done.
Qed.

(** X7.  The two windows overlap in the cells: when the base address is a
    multiple of the word size, a value written through the secondary window
    at [a] is read back through the primary window at [base_address + a]. *)
Theorem X7_secondary_write_primary_read a v :
  0 < ws → base `mod` ws = 0 → a `mod` ws = 0 →
  0 ≤ a < base → 0 ≤ a `div` ws < Py.len cells →
  ∃ self',
    write_word a v self = (Return (), self')
    ∧ read_word (base + a) self' = (Return (Z.land v 0xFFFF), self').
Proof.
  intros Hws Hbase Ha Hlt Hi.
  apply Z.mod_divide in Hbase as Hdb; [|lia].
  apply Z.mod_divide in Ha as Hda; [|lia].
  assert (Hrel : (a - base) `mod` ws = 0)
    by (apply Z.mod_divide; [lia | by apply Z.divide_sub_r]).
  assert (Habs : (base + a) `mod` ws = 0)
    by (apply Z.mod_divide; [lia | by apply Z.divide_add_r]).
  pose proof (primary_index_below_base self a Hws (proj2 Hlt)).
  eexists. split; [apply write_word_fallback; try done; lia|].
  apply read_word_primary; cbn [config memory with_memory]; try done; try lia.
  - replace (base + a - base) with a by lia.
    unfold Py.len in *. by rewrite length_insert.
  - replace (base + a - base) with a by lia.
    apply list_lookup_insert_eq. unfold Py.len in *. lia.
Qed.

(** X8.  The [except] block of [read_word] does not test alignment: an
    address below the base that is not a multiple of the word size, and
    whose quotient by the word size is a cell index, is read from
    that cell without error. *)
Theorem X8_read_word_unaligned_below_base a :
  ws ≠ 0 → a `mod` ws ≠ 0 →
  0 ≤ a < base → 0 ≤ a `div` ws < Py.len cells →
  ∃ x, cells !! Z.to_nat (a `div` ws) = Some x
       ∧ read_word a self = (Return x, self).
Proof.
  intros Hws Ha Hlt Hi.
  destruct (lookup_in_range cells (a `div` ws) Hi) as [x Hx].
  exists x. split; [done|].
  rewrite read_word_unaligned_run, bool_decide_eq_true_2 by done.
  apply memory_getitem_run. by rewrite getitem_nonneg.
Qed.

(** X9.  Which [MemoryError] [read_word] raises, for a non-zero word
    size: the out-of-bounds error exactly for a multiple of the word size
    whose primary index is no cell index and which is not in
    [0, base_address); the unaligned error exactly for a non-multiple that
    the [except] block cannot serve. *)
Theorem X9_read_word_memory_errors a :
  ws ≠ 0 →
  ((read_word a self).1 = Raise (MemoryError (OutOfBounds a))
   ↔ a `mod` ws = 0
     ∧ ¬ (0 ≤ (a - base) `div` ws < Py.len cells) ∧ ¬ (0 ≤ a < base))
  ∧ ((read_word a self).1 = Raise (MemoryError (Unaligned a))
     ↔ a `mod` ws ≠ 0
       ∧ ¬ (0 ≤ a < base ∧ 0 ≤ a `div` ws < Py.len cells)).
Proof.
  intros Hws. destruct (decide (a `mod` ws = 0)) as [Ha|Ha].
  - rewrite read_word_aligned_run by done.
    case_bool_decide; rewrite ?memory_getitem_eq;
      try destruct (Py.getitem _ _); cbn; intuition (done || lia).
  - rewrite read_word_unaligned_run by done.
    case_bool_decide; rewrite ?memory_getitem_eq;
      try destruct (Py.getitem _ _); cbn; intuition (done || lia).
Qed.

(** X10.  When the base address equals the word size times the number of
    cells, the wrap-around of the negative primary index lands on the cell
    of the secondary window: for a multiple [a] of the word size below the
    base, [read_word(a)] returns cell [a / word_size], and
    [write_word(a, v)] followed by [read_word(a)] returns [v & 0xFFFF]. *)
Theorem X10_below_base_round_trip a v :
  0 < ws → base = ws * Py.len cells → 0 ≤ a < base → a `mod` ws = 0 →
  (∃ x, cells !! Z.to_nat (a `div` ws) = Some x
        ∧ read_word a self = (Return x, self))
  ∧ (∃ self', write_word a v self = (Return (), self')
              ∧ read_word a self' = (Return (Z.land v 0xFFFF), self')).
Proof.
  intros Hws Hbase Hlt Ha.
  assert (Hidx : (a - base) `div` ws = a `div` ws - Py.len cells).
  { rewrite Hbase.
    replace (a - ws * Py.len cells) with (a + - Py.len cells * ws) by lia.
    rewrite Z.div_add by lia. lia. }
  assert (Hi : 0 ≤ a `div` ws < Py.len cells).
  { split; [apply Z.div_pos; lia|]. apply Z.div_lt_upper_bound; lia. }
  assert (Hrel : (a - base) `mod` ws = 0).
  { apply Z.mod_divide; [lia|]. apply Z.divide_sub_r.
    - apply Z.mod_divide; [lia|done].
    - rewrite Hbase. by apply Z.divide_factor_l. }
  assert (Hread : ∀ s x,
            config s = config self → Py.len (memory s) = Py.len cells →
            memory s !! Z.to_nat (a `div` ws) = Some x →
            read_word a s = (Return x, s)).
  { intros s x Hc Hl Hx. rewrite read_word_aligned_run by (rewrite Hc; lia).
    rewrite Hc, Hl, bool_decide_eq_true_2 by lia.
    apply memory_getitem_run. rewrite getitem_negative by lia.
    rewrite <- Hx. f_equal. lia. }
  split.
  - destruct (lookup_in_range cells (a `div` ws) Hi) as [x Hx].
    exists x. split; [done|]. by apply Hread.
  - eexists. split; [apply write_word_fallback; try done; lia|].
    apply Hread; cbn [config memory with_memory]; [done| |].
    + unfold Py.len. by rewrite length_insert.
    + apply list_lookup_insert_eq. unfold Py.len in *. lia.
Qed.

End reads.

Lemma X6_read_other_cell_after_write_witness :
  ∃ self' x,
    write_word 8 7 mem_xyz = (Return (), self')
    ∧ read_word 12 mem_xyz = (Return x, mem_xyz)
    ∧ read_word 12 self' = (Return x, self').
Proof.
  apply (X6_read_other_cell_after_write mem_xyz 8 12 7); by vm_compute.
Defined.

Lemma X7_secondary_write_primary_read_witness :
  ∃ self',
    write_word 4 0x1FFFF mem_8_8 = (Return (), self')
    ∧ read_word 12 self' = (Return 0xFFFF, self').
Proof.
  apply (X7_secondary_write_primary_read mem_8_8 4 0x1FFFF); by vm_compute.
Defined.

Lemma X8_read_word_unaligned_below_base_witness :
  ∃ x, memory mem_xyz !! 0%nat = Some x
       ∧ read_word 3 mem_xyz = (Return x, mem_xyz).
Proof.
  apply (X8_read_word_unaligned_below_base mem_xyz 3); by vm_compute.
Defined.

Lemma X9_read_word_memory_errors_witness :
  (read_word 400 mem_8_8).1 = Raise (MemoryError (OutOfBounds 400))
  ∧ (read_word 9 mem_8_8).1 = Raise (MemoryError (Unaligned 9)).
Proof.
  split.
  - apply (X9_read_word_memory_errors mem_8_8 400); [done|].
    split; [by vm_compute|]. split; vm_compute; by intros [? ?].
  - apply (X9_read_word_memory_errors mem_8_8 9); [done|].
    split; [by vm_compute|]. vm_compute. by intros [[? ?] ?].
Defined.

Lemma X10_below_base_round_trip_witness :
  (∃ x, memory (__init__ 16 8) !! 1%nat = Some x
        ∧ read_word 4 (__init__ 16 8) = (Return x, __init__ 16 8))
  ∧ (∃ self', write_word 4 0x1FFFF (__init__ 16 8) = (Return (), self')
              ∧ read_word 4 self' = (Return 0xFFFF, self')).
Proof.
  apply (X10_below_base_round_trip (__init__ 16 8) 4 0x1FFFF); by vm_compute.
Defined.

(** ** Freshly constructed objects *)

Lemma init_len (base size : Z) :
  Py.len (memory (__init__ base size)) = Z.max 0 (size `div` 2).
Proof.
  cbn [__init__ memory]. unfold Py.len, Py.list_repeat.
  rewrite length_replicate. lia.
Qed.

(** X11.  An object built with [size < 2] has no cell:
    [is_valid_address] is [False] everywhere, [write_word] always raises a
    [MemoryError], and [read_word] never returns: it raises [IndexError]
    for a multiple of 4 in [0, base_address) and a [MemoryError]
    otherwise. *)
Theorem X11_empty_memory (base size a v : Z) :
  size < 2 →
  is_valid_address a (__init__ base size) = (Return false, __init__ base size)
  ∧ (∃ m, write_word a v (__init__ base size)
          = (Raise (MemoryError m), __init__ base size))
  ∧ (a `mod` 4 = 0 ∧ 0 ≤ a < base →
     read_word a (__init__ base size) = (Raise IndexError, __init__ base size))
  ∧ (¬ (a `mod` 4 = 0 ∧ 0 ≤ a < base) →
     ∃ m, read_word a (__init__ base size)
          = (Raise (MemoryError m), __init__ base size)).
Proof.
  intros Hsize.
  assert (Hdiv : size `div` 2 ≤ 0)
    by (apply Z.lt_succ_r, Z.div_lt_upper_bound; lia).
  pose proof (init_len base size) as Hlen.
  rewrite Z.max_l in Hlen by done.
  split; [|split; [|split]].
  - rewrite is_valid_address_run by done. rewrite Hlen. f_equal.
    repeat case_bool_decide; cbn; try done; lia.
  - rewrite write_word_run by done. rewrite Hlen.
    repeat case_bool_decide; try lia; eauto.
  - intros [Ha Hlt]. rewrite read_word_aligned_run by done.
    rewrite bool_decide_eq_true_2 by auto.
    rewrite memory_getitem_eq, getitem_below; [done|].
    pose proof (primary_index_below_base (__init__ base size) a eq_refl
                  (proj2 Hlt)). cbn [config base_address word_size] in *. lia.
  - intros Hn. destruct (decide (a `mod` 4 = 0)) as [Ha|Ha].
    + rewrite read_word_aligned_run by done. rewrite Hlen.
      rewrite bool_decide_eq_false_2; [eauto|].
      cbn [config base_address word_size]. intros [?|?]; [lia|auto].
    + rewrite read_word_unaligned_run by done. rewrite Hlen.
      rewrite bool_decide_eq_false_2 by lia. eauto.
Qed.

Lemma X11_empty_memory_witness :
  is_valid_address 0 (__init__ 8 1) = (Return false, __init__ 8 1)
  ∧ read_word 0 (__init__ 8 1) = (Raise IndexError, __init__ 8 1).
Proof.
  destruct (X11_empty_memory 8 1 0 7) as (Hv & _ & Hr & _); [lia|].
  split; [exact Hv|]. apply Hr. by vm_compute.
Defined.

(** X12.  The primary window of [MIPSMemory(base_address, size)] with
    [size >= 0]: at or above the base, [is_valid_address(a)] is [True]
    exactly for the addresses [base_address + 4 * k] with
    [k < size // 2], that is up to [base_address + 4 * (size // 2)], not
    [base_address + size]. *)
Theorem X12_primary_window (base size a : Z) :
  0 ≤ size → base ≤ a →
  (is_valid_address a (__init__ base size)).1 = Return true
  ↔ (a - base) `mod` 4 = 0 ∧ a < base + 4 * (size `div` 2).
Proof.
  intros Hsize Ha.
  assert (0 ≤ size `div` 2) by (apply Z.div_pos; lia).
  rewrite is_valid_address_run by done. rewrite init_len, Z.max_r by done.
  cbn [__init__ config base_address word_size fst].
  assert (Hwin : 0 ≤ (a - base) `div` 4 < size `div` 2
                 ↔ a < base + 4 * (size `div` 2)).
  { split.
    - intros [_ Hlt].
      pose proof (Z.mul_succ_div_gt (a - base) 4 eq_refl). lia.
    - intros Hlt. split; [apply Z.div_pos; lia|].
      apply Z.div_lt_upper_bound; lia. }
  repeat case_bool_decide; cbn; intuition (done || lia).
Qed.

Lemma X12_primary_window_witness :
  (is_valid_address 20 (__init__ 8 8)).1 = Return true
  ∧ (is_valid_address 24 (__init__ 8 8)).1 ≠ Return true.
Proof.
  split.
  - apply (X12_primary_window 8 8 20); [lia | lia | by vm_compute].
  - intros H. apply (X12_primary_window 8 8 24) in H; [|lia|lia].
    destruct H as [_ H]. vm_compute in H. discriminate H.
Defined.

(** [read_word] hands the object back as it received it. *)
Lemma read_word_keeps_object (self : MIPSMemory) (a : Z) :
  (read_word a self).2 = self.
Proof.
  destruct (decide (word_size (config self) = 0)) as [Hz|Hws].
  - unfold read_word, try_except_MemoryError, read_word_try,
      _validate_address, modulo.
    unseq. by rewrite Hz.
  - destruct (decide (a `mod` word_size (config self) = 0)).
    + rewrite read_word_aligned_run by done.
      case_bool_decide; [|done]. rewrite memory_getitem_eq.
      by destruct (Py.getitem _ _).
    + rewrite read_word_unaligned_run by done.
      case_bool_decide; [|done]. rewrite memory_getitem_eq.
      by destruct (Py.getitem _ _).
Qed.

(** X13.  On a freshly constructed object every read that returns,
    returns 0, and leaves the object as constructed. *)
Theorem X13_fresh_memory_reads_zero (base size a x : Z) (self' : MIPSMemory) :
  read_word a (__init__ base size) = (Return x, self') →
  x = 0 ∧ self' = __init__ base size.
Proof.
  intros Hr. split.
  - apply read_word_raw in Hr as [i Hi]. cbn [__init__ memory] in Hi.
    unfold Py.list_repeat in Hi. by apply lookup_replicate_1 in Hi as [-> _].
  - pose proof (read_word_keeps_object (__init__ base size) a) as H.
    by rewrite Hr in H.
Qed.

Lemma X13_fresh_memory_reads_zero_witness :
  read_word 12 mem_8_8 = (Return 0, mem_8_8) ∧ 0 = 0 ∧ mem_8_8 = __init__ 8 8.
Proof.
  split; [reflexivity|].
  apply (X13_fresh_memory_reads_zero 8 8 12 0 mem_8_8). reflexivity.
Defined.

(** * Further properties of the data segment *)

Lemma index_contains (l : list string) (x : string) :
  existsb (String.eqb x) l = true →
  ∃ r : nat, Py.index l x = Some (Z.of_nat r).
Proof.
  induction l as [|y l IH]; cbn; [done|].
  rewrite (String.eqb_sym x y). destruct (String.eqb y x); cbn.
  - intros _. by exists 0%nat.
  - intros [r ->]%IH. exists (S r). f_equal. lia.
Qed.

Lemma dict_set_insert (d : list (string * Z)) (r : nat) (k : string) (v : Z) :
  NoDup (Py.keys d) → Py.keys d !! r = Some k →
  Py.dict_set d k v = <[r := (k, v)]> d.
Proof.
  unfold Py.keys. revert r. induction d as [|[k' v'] d IH]; intros r Hnd Hr.
  - done.
  - cbn in Hnd, Hr. apply NoDup_cons in Hnd as [Hk' Hnd].
    destruct r as [|r]; cbn in *.
    + injection Hr as ->. by rewrite String.eqb_refl.
    + destruct (String.eqb_spec k' k) as [->|Hne].
      * exfalso. apply Hk'. by eapply list_elem_of_lookup_2.
      * f_equal. by apply IH.
Qed.

(** [update_data_memory] for a name at rank [r], cell index or not. *)
Lemma update_data_memory_cases (self : MIPSMemory) (name : string) (v : Z)
    (r : nat) :
  NoDup (Py.keys (data_section self)) →
  Py.keys (data_section self) !! r = Some name →
  update_data_memory name v self
  = (Return (),
     if bool_decide (r < length (memory self))%nat
     then {| config := config self;
             memory := <[r := v]> (memory self);
             data_section := <[r := (name, v)]> (data_section self) |}
     else self).
Proof.
  intros Hnd Hr. case_bool_decide as Hlt.
  - rewrite (update_data_memory_run self name v r) by done.
    by rewrite (dict_set_insert _ r).
  - unfold update_data_memory. unseq.
    rewrite (proj2 (contains_elem_of _ _))
      by (by eapply list_elem_of_lookup_2).
    rewrite (index_lookup _ r) by done.
    by rewrite bool_decide_eq_false_2 by (unfold Py.len; lia).
Qed.

(** X14.  [update_data_memory] never raises, whatever the name and the
    state of the data segment (the [ValueError] of [list.index] and the
    [IndexError] of the store are unreachable), and it keeps the
    configuration and the number of cells. *)
Theorem X14_update_data_memory_returns
    (self : MIPSMemory) (name : string) (v : Z) :
  ∃ self',
    update_data_memory name v self = (Return (), self')
    ∧ config self' = config self
    ∧ length (memory self') = length (memory self).
Proof.
  unfold update_data_memory. unseq.
  destruct (Py.contains (data_section self) name) eqn:Hc; [|by eexists].
  apply index_contains in Hc as [r ->].
  case_bool_decide as Hr; [|by eexists].
  rewrite memory_setitem_run by done. cbv beta iota.
  eexists. split; [done|]. cbn. by rewrite length_insert.
Qed.

(** X15.  A name whose rank is not a cell index is skipped entirely: the
    call returns normally and neither the cells nor the entry of the name
    in the data segment change. *)
Theorem X15_update_data_memory_beyond_cells
    (self : MIPSMemory) (name : string) (v : Z) (r : nat) :
  NoDup (Py.keys (data_section self)) →
  Py.keys (data_section self) !! r = Some name →
  (length (memory self) ≤ r)%nat →
  update_data_memory name v self = (Return (), self).
Proof.
  intros Hnd Hr Hge. rewrite (update_data_memory_cases self name v r) by done.
  by rewrite bool_decide_eq_false_2 by lia.
Qed.

Lemma X15_update_data_memory_beyond_cells_witness :
  update_data_memory "z" 9
    (allocate_data [("x", 1); ("y", 2); ("z", 3)]%string (__init__ 8 4)).2
  = (Return (),
     (allocate_data [("x", 1); ("y", 2); ("z", 3)]%string (__init__ 8 4)).2).
Proof.
  apply (X15_update_data_memory_beyond_cells _ "z" 9 2).
  - apply (bool_decide_unpack _). by vm_compute.
  - reflexivity.
  - vm_compute. lia.
Defined.

(** X16.  [update_data_memory] keeps the correspondence between the data
    segment and the cells: if every entry whose rank is a cell index has
    its value in the cell of that rank, this is still so afterwards. *)
Theorem X16_update_data_memory_keeps_layout
    (self : MIPSMemory) (name : string) (v : Z) :
  NoDup (Py.keys (data_section self)) →
  (∀ (i : nat) k x,
     data_section self !! i = Some (k, x) →
     (i < length (memory self))%nat → memory self !! i = Some x) →
  ∀ (i : nat) k x,
    data_section (update_data_memory name v self).2 !! i = Some (k, x) →
    (i < length (memory (update_data_memory name v self).2))%nat →
    memory (update_data_memory name v self).2 !! i = Some x.
Proof.
  intros Hnd Hinv i k x.
  destruct (decide (name ∈ Py.keys (data_section self))) as [Hin|Hout].
  - apply list_elem_of_lookup_1 in Hin as [r Hr].
    rewrite (update_data_memory_cases self name v r) by done.
    case_bool_decide as Hlt; cbn [snd memory data_section]; [|by apply Hinv].
    rewrite length_insert. intros Hd Hi.
    destruct (decide (i = r)) as [->|Hne].
    + rewrite list_lookup_insert_eq in Hd.
      * injection Hd as <- <-. by apply list_lookup_insert_eq.
      * apply lookup_lt_Some in Hr. unfold Py.keys in Hr.
        by rewrite length_fmap in Hr.
    + rewrite list_lookup_insert_ne in Hd by done.
      rewrite list_lookup_insert_ne by done. by eapply Hinv.
  - unfold update_data_memory. unseq.
    rewrite contains_not_elem_of by done. cbn [snd]. by apply Hinv.
Qed.

Lemma X16_update_data_memory_keeps_layout_witness :
  memory (update_data_memory "y" 99 mem_xyz).2 !! 1%nat = Some 99.
Proof.
  apply (X16_update_data_memory_keeps_layout mem_xyz "y" 99) with (k := "y"%string).
  - apply (bool_decide_unpack _). by vm_compute.
  - intros [|[|[|i]]] k x; vm_compute; intros H; try done;
      injection H as <- <-; done.
  - reflexivity.
  - vm_compute. lia.
Defined.

(** X17.  Loading a data segment that has at least as many entries as the
    one loaded before erases every trace of the earlier load: the object
    is the one the second load alone produces. *)
Theorem X17_allocate_data_overrides
    (self : MIPSMemory) (d1 d2 : list (string * Z)) :
  (length d1 ≤ length d2)%nat →
  allocate_data d2 (allocate_data d1 self).2 = allocate_data d2 self.
Proof.
  intros Hle. rewrite !allocate_data_run. cbn [snd config memory].
  assert (Hlen : length (Py.values d1) = length d1)
    by (unfold Py.values; apply length_fmap).
  do 2 f_equal.
  rewrite length_app, length_take, length_drop, Hlen.
  replace (length (memory self) `min` length d1
           + (length (memory self) - length d1))%nat
    with (length (memory self)) by lia.
  f_equal. rewrite drop_app, length_take, Hlen.
  rewrite (drop_ge (take _ _)) by (rewrite length_take; lia).
  rewrite drop_drop. cbn [app].
  destruct (decide (length d1 ≤ length (memory self))%nat).
  - f_equal. lia.
  - by rewrite !drop_ge by lia.
Qed.

Lemma X17_allocate_data_overrides_witness :
  allocate_data [("u", 7); ("w", 8); ("t", 9)]%string mem_xyz
  = allocate_data [("u", 7); ("w", 8); ("t", 9)]%string mem_8_8.
Proof.
  apply (X17_allocate_data_overrides mem_8_8
           [("x", 1); ("y", 2); ("z", 3)]%string
           [("u", 7); ("w", 8); ("t", 9)]%string).
  vm_compute. lia.
Defined.

(** * The probe and the read *)

(** X18.  At or above a base address that is a multiple of a positive
    word size, [is_valid_address] predicts [read_word]: the read returns a
    value exactly when the probe answers [True]. *)
Theorem X18_valid_iff_read_above_base (self : MIPSMemory) (a : Z) :
  0 < word_size (config self) →
  base_address (config self) `mod` word_size (config self) = 0 →
  base_address (config self) ≤ a →
  (is_valid_address a self).1 = Return true
  ↔ ∃ x, read_word a self = (Return x, self).
Proof.
  intros Hws Hbase Ha.
  apply Z.mod_divide in Hbase as Hdb; [|lia].
  assert (Hal : (a - base_address (config self)) `mod` word_size (config self) = 0
                ↔ a `mod` word_size (config self) = 0).
  { rewrite !Z.mod_divide by lia. split; intros Hd.
    - replace a with (a - base_address (config self)
                      + base_address (config self)) by lia.
      by apply Z.divide_add_r.
    - by apply Z.divide_sub_r. }
  rewrite is_valid_address_run by lia. cbn [fst].
  rewrite (bool_decide_ext _ _ Hal).
  destruct (decide (a `mod` word_size (config self) = 0)) as [Hmod|Hmod].
  - rewrite read_word_aligned_run by (done || lia).
    repeat case_bool_decide; cbn [andb orb]; try (exfalso; lia).
    + match goal with H : 0 ≤ _ `div` _ < _ |- _ =>
        destruct (lookup_in_range _ _ H) as [x Hx] end.
      rewrite (memory_getitem_run _ x) by (by rewrite getitem_nonneg).
      split; eauto.
    + split; [done|]. by intros [x Hx].
  - rewrite read_word_unaligned_run by (done || lia).
    repeat case_bool_decide; cbn [andb orb]; try (exfalso; lia).
    all: split; [done|]; by intros [x Hx].
Qed.

Lemma X18_valid_iff_read_above_base_witness :
  ∃ x, read_word 16 mem_xyz = (Return x, mem_xyz).
Proof.
  apply (X18_valid_iff_read_above_base mem_xyz 16); by vm_compute.
Defined.
